(** * display_table (edit_table.py): a shallow embedding and its properties

    The repository is one Streamlit helper, [display_table], which draws a
    table row by row.  The function is embedded as a program in a small
    monad that threads the one local variable whose binding matters across
    rows (the cell-loop variable [i]), records every call made to the host
    UI (Streamlit) in order, and can raise a Python exception. *)

From Stdlib Require Import String Ascii List Arith PeanoNat ZArith Lia Bool.
From Stdlib Require Import DecimalString DecimalNat.
Import ListNotations.
Open Scope string_scope.
Open Scope list_scope.
Open Scope nat_scope.

(** ** Python and host data *)

(** Exceptions the function can end with.  [UnboundLocalError] is what
    reading a local variable before any assignment raises; [IndexError] is
    raised by subscripting a Python list out of range;
    [StreamlitAPIException] is the host refusing a column specification. *)
Inductive PyError : Type :=
| UnboundLocalError (var : string)
| IndexError
| StreamlitAPIException.

(** [column_formatting]: an integer count or a list of width weights. *)
Inductive ColSpec : Type :=
| SpecInt (n : Z)
| SpecList (weights : list Z).

(** A caller-owned function reference ([edit_function]). *)
Inductive Callback : Type :=
| Fn (name : string).

(** Calls made to the host, in program order. *)
Inductive Event : Type :=
| StHtml (body : string)                    (* st.html(body) *)
| StContainer (key : string)                (* with st.container(key=key) *)
| StColumns (n : nat)                       (* st.columns(spec), n slots returned *)
| ColMarkdown (slot : nat) (body : string)  (* columns[slot].markdown(body) *)
| ColWrite (slot : nat) (body : string)     (* columns[slot].write(body) *)
| StButton (slot : nat) (label key : string)(* with columns[slot]: st.button(label, key=key) *)
| CallEdit (f : Callback) (arg : string).   (* edit_function(arg) *)

(** Keyword arguments of [display_table]; [None] is Python's [None] (or the
    default [False] of [edit_function]). *)
Record Options : Type := mkOptions {
  column_formatting : option ColSpec;
  edit_function : option Callback;
  has_header : bool;
  header_color : option string;
  alternating_row_colors : bool
}.

(** What the host answers during one run of the script: the value of the
    theme option read by [st.get_option], and for which button keys
    [st.button] returns [True] (the button was activated). *)
Record Host : Type := mkHost {
  secondaryBackgroundColor : string;
  button_clicked : string -> bool
}.

(** ** The monad: local [i], host calls, exceptions *)

Inductive Outcome (A : Type) : Type :=
| Done (a : A) (i : option nat)
| Raised (e : PyError).
Arguments Done {A} a i.
Arguments Raised {A} e.

Definition M (A : Type) : Type := option nat -> list Event * Outcome A.

Definition ret {A} (a : A) : M A := fun i => ([], Done a i).

Definition bind {A B} (m : M A) (k : A -> M B) : M B :=
  fun i =>
    match m i with
    | (evs, Done a i') => let (evs', o) := k a i' in (evs ++ evs', o)
    | (evs, Raised e) => (evs, Raised e)
    end.

Definition raise {A} (e : PyError) : M A := fun _ => ([], Raised e).
Definition emit (ev : Event) : M unit := fun i => ([ev], Done tt i).
Definition assign_i (n : nat) : M unit := fun _ => ([], Done tt (Some n)).
Definition load_i : M nat :=
  fun i =>
    match i with
    | Some n => ([], Done n i)
    | None => ([], Raised (UnboundLocalError "i"))
    end.

Declare Scope py_scope.
Delimit Scope py_scope with py.
Notation "x <- m ;; k" := (bind m (fun x => k))
  (at level 61, m at next level, right associativity) : py_scope.
Notation "m ;; k" := (bind m (fun _ => k))
  (at level 61, right associativity) : py_scope.
Open Scope py_scope.

(** [for k, x in enumerate(l, start)]: body; *)
Fixpoint for_enumerate {A} (body : nat -> A -> M unit) (start : nat)
    (l : list A) : M unit :=
  match l with
  | [] => ret tt
  | x :: l' => body start x ;; for_enumerate body (S start) l'
  end.

(** [xs[k]] on a Python list of length [len]. *)
Definition subscript (len k : nat) : M unit :=
  if k <? len then ret tt else raise IndexError.

(** [row[0]]. *)
Definition first_cell (row : list string) : M string :=
  match row with
  | c :: _ => ret c
  | [] => raise IndexError
  end.

(** [str(n)] / [f"{n}"] for a non-negative int. *)
Definition str (n : nat) : string := NilEmpty.string_of_uint (Nat.to_uint n).

(** The identity keys [f"row_{j}"] and [f'edit_{j}']. *)
Definition row_key (j : nat) : string := ("row_" ++ str j)%string.
Definition edit_key (j : nat) : string := ("edit_" ++ str j)%string.
Arguments row_key : simpl never.
Arguments edit_key : simpl never.

(** Python truthiness of the optional arguments. *)
Definition truthy_spec (cf : option ColSpec) : bool :=
  match cf with
  | None => false
  | Some (SpecInt n) => negb (n =? 0)%Z
  | Some (SpecList ws) => match ws with [] => false | _ :: _ => true end
  end.

Definition truthy_str (s : option string) : bool :=
  match s with
  | None => false
  | Some s => negb (s =? EmptyString)%string
  end.

Definition truthy_fn (f : option Callback) : bool :=
  match f with
  | None => false
  | Some _ => true
  end.

(** Host behaviour (Streamlit's [st.columns], not part of this repository):
    an int spec must be positive, a list spec non-empty with positive
    weights, otherwise the host raises; on success it returns a Python list
    with one column object per slot. *)
Definition column_count (spec : ColSpec) : option nat :=
  match spec with
  | SpecInt n => if (0 <? n)%Z then Some (Z.to_nat n) else None
  | SpecList ws =>
      match ws with
      | [] => None
      | _ :: _ => if forallb (Z.ltb 0) ws then Some (length ws) else None
      end
  end.

Definition st_columns (spec : ColSpec) : M nat :=
  match column_count spec with
  | Some n => emit (StColumns n) ;; ret n
  | None => raise StreamlitAPIException
  end.

(** ** display_table *)

Section DisplayTable.

Variable opts : Options.
Variable host : Host.

(** Lines 64-70: the background of row [j]. *)
Definition row_style (j : nat) : string :=
  if (j =? 0) && truthy_str (header_color opts) then
    match header_color opts with Some c => c | None => EmptyString end
  else if alternating_row_colors opts && negb ((j + 1) mod 2 =? 0) then
    secondaryBackgroundColor host
  else "transparent".

(** Line 72: [len(row) if not column_formatting else column_formatting]. *)
Definition columns_arg (row : list string) : ColSpec :=
  match column_formatting opts with
  | Some spec => if truthy_spec (Some spec) then spec
                 else SpecInt (Z.of_nat (length row))
  | None => SpecInt (Z.of_nat (length row))
  end.

(** Line 74: [row[1:] if edit_function else row]. *)
Definition visible_cells (row : list string) : list string :=
  if truthy_fn (edit_function opts) then tl row else row.

(** Lines 75-78: one iteration of the cell loop, after [i, col] are bound. *)
Definition draw_cell (j i : nat) (col : string) : Event :=
  if j =? 0 then ColMarkdown i ("***" ++ col ++ "***")%string
  else ColWrite i col.

Definition cell_body (j n : nat) (i : nat) (col : string) : M unit :=
  assign_i i ;; subscript n i ;; emit (draw_cell j i col).

(** Line 80: [j != 0 or not has_header]. *)
Definition shows_action (j : nat) : bool :=
  negb (j =? 0) || negb (has_header opts).

(** Lines 80-84. *)
Definition edit_action (j n : nat) (row : list string) : M unit :=
  match edit_function opts with
  | Some f =>
      if shows_action j then
        i <- load_i ;;
        subscript n (i + 1) ;;
        emit (StButton (i + 1) "Edit" (edit_key j)) ;;
        if button_clicked host (edit_key j)
        then id <- first_cell row ;; emit (CallEdit f id)
        else ret tt
      else ret tt
  | None => ret tt
  end.

(** Line 86: the style fragment for row [j]. *)
Definition row_css (j : nat) (style : string) : string :=
  ("<style> .st-key-row_" ++ str j ++ " { background-color: " ++ style
    ++ ";} </style>")%string.

(** Lines 63-86: the body of the loop over rows. *)
Definition display_row (j : nat) (row : list string) : M unit :=
  let style := row_style j in
  emit (StContainer (row_key j)) ;;
  n <- st_columns (columns_arg row) ;;
  for_enumerate (cell_body j n) 0 (visible_cells row) ;;
  edit_action j n row ;;
  emit (StHtml (row_css j style)).

(** Lines 59-86. *)
Definition display_table (table_data : list (list string)) : M unit :=
  emit (StHtml "<style> .st-key-rnd_table { display: block;} </style>") ;;
  emit (StContainer "rnd_table") ;;
  for_enumerate display_row 0 table_data.

End DisplayTable.

(** A call starts with no local bound. *)
Definition run {A} (m : M A) : list Event * Outcome A := m None.

(** ** Reading a run *)

Definition slots_allocated (evs : list Event) : list nat :=
  flat_map (fun ev => match ev with StColumns n => [n] | _ => [] end) evs.

Definition is_cell (ev : Event) : bool :=
  match ev with
  | ColMarkdown _ _ | ColWrite _ _ => true
  | _ => false
  end.

Definition cells_drawn (evs : list Event) : list Event := filter is_cell evs.

Definition is_button (ev : Event) : bool :=
  match ev with
  | StButton _ _ _ => true
  | _ => false
  end.

Definition buttons_drawn (evs : list Event) : list Event := filter is_button evs.

Definition callback_calls (evs : list Event) : list (Callback * string) :=
  flat_map (fun ev => match ev with CallEdit f a => [(f, a)] | _ => [] end) evs.

Definition keys_used (evs : list Event) : list string :=
  flat_map (fun ev =>
    match ev with
    | StContainer k => [k]
    | StButton _ _ k => [k]
    | _ => []
    end) evs.


Definition no_clicks : string -> bool := fun _ => false.
Definition click (key : string) : string -> bool := fun k => (k =? key)%string.

(** The number of column objects the host hands to a row; none when it
    refuses the specification. *)
Definition slots_available (opts : Options) (row : list string) : nat :=
  match column_count (columns_arg opts row) with
  | Some n => n
  | None => 0
  end.

(** ** Scenarios used below *)

Definition capture : Callback := Fn "capture".

(** A host on which no button was activated, then one per activated key. *)
Definition host_idle : Host := mkHost "#f0f2f6" no_clicks.
Definition host_click (key : string) : Host := mkHost "#f0f2f6" (click key).

(** [display_table(data, edit_function=capture)]. *)
Definition opts_edit : Options := mkOptions None (Some capture) true None false.

(** [display_table(data, has_header=False)]. *)
Definition opts_no_header : Options := mkOptions None None false None false.

(** [display_table(data, column_formatting=1, edit_function=capture)]. *)
Definition opts_one_column : Options :=
  mkOptions (Some (SpecInt 1)) (Some capture) true None false.

(** [display_table(data, edit_function=capture, has_header=False)]. *)
Definition opts_edit_no_header : Options :=
  mkOptions None (Some capture) false None false.



(** [display_table(data, column_formatting=[2, 1])]. *)
Definition opts_two_weights : Options :=
  mkOptions (Some (SpecList [2%Z; 1%Z])) None true None false.


Definition cities : list (list string) :=
  [["Name"; "Age"; "City"]; ["Alice"; "30"; "Oslo"]].

Definition people : list (list string) :=
  [["1"; "Alice"; "30"]; ["2"; "Bob"; "25"]].

Definition people_with_header : list (list string) :=
  [["ID"; "Name"]; ["1"; "Alice"]].

(** The cells of a row as the cell loop draws them when every slot exists:
    the [k]-th visible cell goes to slot [start + k]. *)
Definition row_cells (j start : nat) (l : list string) : list Event :=
  map (fun p => draw_cell j (fst p) (snd p)) (combine (seq start (length l)) l).

(** The value of [i] after the cell loop ran over [l] from [start]. *)
Definition i_after_cells (start : nat) (l : list string) (i0 : option nat)
    : option nat :=
  match l with
  | [] => i0
  | _ :: _ => Some (start + length l - 1)
  end.

(** ** A call written out *)




(** ** The cell loop *)

Lemma cell_body_eq (j n i : nat) (col : string) (i0 : option nat) :
  cell_body j n i col i0 =
    if i <? n then ([draw_cell j i col], Done tt (Some i))
    else ([], Raised IndexError).
Proof.
  unfold cell_body, bind, assign_i, subscript, emit.
  destruct (i <? n); reflexivity.
Qed.

Lemma for_enumerate_cons {A} (body : nat -> A -> M unit) (k : nat) (x : A)
    (l : list A) (i0 : option nat) :
  for_enumerate body k (x :: l) i0 =
    match body k x i0 with
    | (evs, Done _ i1) =>
        let (evs', o) := for_enumerate body (S k) l i1 in (evs ++ evs', o)
    | (evs, Raised e) => (evs, Raised e)
    end.
Proof. reflexivity. Qed.

Lemma cell_loop_spec (j n : nat) (l : list string) :
  forall (k : nat) (i0 : option nat),
    k <= n ->
    for_enumerate (cell_body j n) k l i0 =
      if k + length l <=? n
      then (row_cells j k l, Done tt (i_after_cells k l i0))
      else (row_cells j k (firstn (n - k) l), Raised IndexError).
Proof.
  induction l as [|x l IH]; intros k i0 Hk.
  - cbn [length for_enumerate]. rewrite Nat.add_0_r.
    apply Nat.leb_le in Hk. rewrite Hk. reflexivity.
  - rewrite for_enumerate_cons, cell_body_eq. cbn [length].
    destruct (k <? n) eqn:Hlt.
    + apply Nat.ltb_lt in Hlt.
      rewrite (IH (S k) (Some k)) by lia.
      replace (S k + length l) with (k + S (length l)) by lia.
      destruct (k + S (length l) <=? n) eqn:Hfit.
      * unfold row_cells. cbn. f_equal. f_equal.
        destruct l; cbn; f_equal; lia.
      * replace (n - k) with (S (n - S k)) by lia.
        reflexivity.
    + apply Nat.ltb_ge in Hlt.
      replace (k + S (length l) <=? n) with false
        by (symmetry; apply Nat.leb_gt; lia).
      replace (n - k) with 0 by lia. reflexivity.
Qed.

Lemma row_cells_are_cells (j k : nat) (l : list string) :
  cells_drawn (row_cells j k l) = row_cells j k l.
Proof.
  unfold cells_drawn, row_cells.
  induction (combine (seq k (length l)) l) as [|p ps IH]; cbn; [reflexivity|].
  unfold draw_cell at 1. destruct (j =? 0); cbn; now rewrite IH.
Qed.

(** ** The Edit action and the row body, case by case *)

Lemma edit_action_eq (opts : Options) (host : Host) (j n : nat)
    (row : list string) (i1 : option nat) :
  edit_action opts host j n row i1 =
    match edit_function opts with
    | Some f =>
        if shows_action opts j then
          match i1 with
          | None => ([], Raised (UnboundLocalError "i"))
          | Some i =>
              if i + 1 <? n then
                if button_clicked host (edit_key j) then
                  match row with
                  | id :: _ =>
                      ([StButton (i + 1) "Edit" (edit_key j);
                        CallEdit f id], Done tt (Some i))
                  | [] =>
                      ([StButton (i + 1) "Edit" (edit_key j)],
                       Raised IndexError)
                  end
                else ([StButton (i + 1) "Edit" (edit_key j)],
                      Done tt (Some i))
              else ([], Raised IndexError)
          end
        else ([], Done tt i1)
    | None => ([], Done tt i1)
    end.
Proof.
  unfold edit_action.
  destruct (edit_function opts) as [f|]; [|reflexivity].
  destruct (shows_action opts j); [|reflexivity].
  destruct i1 as [i|]; [|reflexivity].
  unfold bind, load_i, subscript, emit.
  destruct (i + 1 <? n); [|reflexivity].
  cbn. destruct (button_clicked host _); [|reflexivity].
  destruct row; reflexivity.
Qed.

Lemma display_row_eq (opts : Options) (host : Host) (j : nat)
    (row : list string) (i0 : option nat) :
  display_row opts host j row i0 =
    match column_count (columns_arg opts row) with
    | None => ([StContainer (row_key j)],
               Raised StreamlitAPIException)
    | Some n =>
        match for_enumerate (cell_body j n) 0 (visible_cells opts row) i0 with
        | (cev, Raised e) =>
            (StContainer (row_key j) :: StColumns n :: cev,
             Raised e)
        | (cev, Done _ i1) =>
            match edit_action opts host j n row i1 with
            | (eev, Raised e) =>
                (StContainer (row_key j) :: StColumns n
                   :: cev ++ eev, Raised e)
            | (eev, Done _ i2) =>
                (StContainer (row_key j) :: StColumns n
                   :: cev ++ eev
                   ++ [StHtml (row_css j (row_style opts host j))],
                 Done tt i2)
            end
        end
    end.
Proof.
  unfold display_row, st_columns.
  destruct (column_count (columns_arg opts row)) as [n|]; [|reflexivity].
  unfold bind at 1. unfold emit at 1. unfold bind at 1. unfold bind at 1.
  unfold emit at 1, ret at 1. cbn [app].
  unfold bind at 1.
  destruct (for_enumerate (cell_body j n) 0 (visible_cells opts row) i0)
    as [cev [[] i1|e]]; [|reflexivity].
  unfold bind at 1.
  destruct (edit_action opts host j n row i1) as [eev [[] i2|e]];
    [|reflexivity].
  unfold emit. cbn [app]. reflexivity.
Qed.

(** ** Reading the events of a row *)

Lemma cells_drawn_app (a b : list Event) :
  cells_drawn (a ++ b) = cells_drawn a ++ cells_drawn b.
Proof. apply filter_app. Qed.

Lemma buttons_drawn_app (a b : list Event) :
  buttons_drawn (a ++ b) = buttons_drawn a ++ buttons_drawn b.
Proof. apply filter_app. Qed.

Lemma callback_calls_app (a b : list Event) :
  callback_calls (a ++ b) = callback_calls a ++ callback_calls b.
Proof. apply flat_map_app. Qed.

Lemma keys_used_app (a b : list Event) :
  keys_used (a ++ b) = keys_used a ++ keys_used b.
Proof. apply flat_map_app. Qed.

Lemma slots_allocated_app (a b : list Event) :
  slots_allocated (a ++ b) = slots_allocated a ++ slots_allocated b.
Proof. apply flat_map_app. Qed.

Lemma row_cells_only_cells (j k : nat) (l : list string) :
  buttons_drawn (row_cells j k l) = []
  /\ callback_calls (row_cells j k l) = []
  /\ keys_used (row_cells j k l) = []
  /\ slots_allocated (row_cells j k l) = [].
Proof.
  unfold row_cells.
  induction (combine (seq k (length l)) l) as [|p ps IH].
  - repeat split.
  - destruct IH as (Hb & Hc & Hk & Hs).
    cbn [map]. unfold draw_cell at 1 3 5 7.
    destruct (j =? 0); cbn; repeat split; assumption.
Qed.

(** What the cell loop emits is always an initial segment of the row's
    visible cells, each in the slot of its position. *)
Lemma cell_loop_events (j n : nat) (l : list string) (i0 : option nat) :
  exists m, fst (for_enumerate (cell_body j n) 0 l i0) = row_cells j 0 (firstn m l).
Proof.
  rewrite cell_loop_spec by lia.
  destruct (0 + length l <=? n).
  - exists (length l). now rewrite firstn_all.
  - exists (n - 0). reflexivity.
Qed.

Lemma edit_action_events (opts : Options) (host : Host) (j n : nat)
    (row : list string) (i1 : option nat) :
  cells_drawn (fst (edit_action opts host j n row i1)) = []
  /\ slots_allocated (fst (edit_action opts host j n row i1)) = []
  /\ (buttons_drawn (fst (edit_action opts host j n row i1)) = []
      /\ keys_used (fst (edit_action opts host j n row i1)) = []
      /\ callback_calls (fst (edit_action opts host j n row i1)) = []
      \/ exists f i, edit_function opts = Some f /\ shows_action opts j = true
         /\ i1 = Some i /\ i + 1 < n
         /\ buttons_drawn (fst (edit_action opts host j n row i1)) =
              [StButton (i + 1) "Edit" (edit_key j)]
         /\ keys_used (fst (edit_action opts host j n row i1)) =
              [(edit_key j)]
         /\ callback_calls (fst (edit_action opts host j n row i1)) =
              if button_clicked host (edit_key j)
              then match row with id :: _ => [(f, id)] | [] => [] end
              else []).
Proof.
  assert (Hnone : forall o : Outcome unit,
    cells_drawn (fst (@nil Event, o)) = []
    /\ slots_allocated (fst (@nil Event, o)) = []
    /\ (buttons_drawn (fst (@nil Event, o)) = []
        /\ keys_used (fst (@nil Event, o)) = []
        /\ callback_calls (fst (@nil Event, o)) = []
        \/ exists f i, edit_function opts = Some f
           /\ shows_action opts j = true /\ i1 = Some i /\ i + 1 < n
           /\ buttons_drawn (fst (@nil Event, o)) =
                [StButton (i + 1) "Edit" (edit_key j)]
           /\ keys_used (fst (@nil Event, o)) = [(edit_key j)]
           /\ callback_calls (fst (@nil Event, o)) =
                if button_clicked host (edit_key j)
                then match row with id :: _ => [(f, id)] | [] => [] end
                else [])).
  { intros o. cbn. split; [reflexivity|]. split; [reflexivity|].
    left. repeat split. }
  rewrite edit_action_eq.
  destruct (edit_function opts) as [f|]; [|apply Hnone].
  destruct (shows_action opts j) eqn:Hs; [|apply Hnone].
  destruct i1 as [i|]; [|apply Hnone].
  destruct (i + 1 <? n) eqn:Hlt; [|apply Hnone].
  apply Nat.ltb_lt in Hlt.
  destruct (button_clicked host _) eqn:Hc.
  - destruct row as [|id rest]; cbn; (split; [reflexivity|]);
      (split; [reflexivity|]); right; exists f, i; rewrite ?Hc;
      repeat split; auto.
  - cbn. split; [reflexivity|]. split; [reflexivity|].
    right. exists f, i. rewrite ?Hc. repeat split; auto.
Qed.

(** Splits a goal about [display_row] along the four ways the row body can
    end, keeping what is known of the cell loop and of the Edit action. *)
Ltac row_cases opts host j row i0 :=
  rewrite (display_row_eq opts host j row i0);
  let n := fresh "n" in
  let Hn := fresh "Hn" in
  destruct (column_count (columns_arg opts row)) as [n|] eqn:Hn;
  [ let m := fresh "m" in
    let Hm := fresh "Hm" in
    let cev := fresh "cev" in
    let i1 := fresh "i1" in
    let e := fresh "e" in
    let Hloop := fresh "Hloop" in
    destruct (cell_loop_events j n (visible_cells opts row) i0) as [m Hm];
    destruct (for_enumerate (cell_body j n) 0 (visible_cells opts row) i0)
      as [cev [[] i1|e]] eqn:Hloop;
    cbn [fst] in Hm; subst cev;
    [ let He := fresh "He" in
      let eev := fresh "eev" in
      let i2 := fresh "i2" in
      let e' := fresh "e" in
      let Hedit := fresh "Hedit" in
      pose proof (edit_action_events opts host j n row i1) as He;
      destruct (edit_action opts host j n row i1)
        as [eev [[] i2|e']] eqn:Hedit;
      cbn [fst] in He
    | ]
  | ].

Lemma display_row_slots (opts : Options) (host : Host) (j : nat)
    (row : list string) (i0 : option nat) :
  slots_allocated (fst (display_row opts host j row i0)) =
    match column_count (columns_arg opts row) with
    | Some n => [n]
    | None => []
    end.
Proof.
  row_cases opts host j row i0; cbn [fst]; [| | |reflexivity].
  - destruct He as (_ & Hs & _).
    change (slots_allocated (StContainer (row_key j) :: StColumns n :: ?l))
      with (n :: slots_allocated l).
    rewrite !slots_allocated_app, Hs.
    destruct (row_cells_only_cells j 0 (firstn m (visible_cells opts row)))
      as (_ & _ & _ & ->). reflexivity.
  - destruct He as (_ & Hs & _).
    change (slots_allocated (StContainer (row_key j) :: StColumns n :: ?l))
      with (n :: slots_allocated l).
    rewrite !slots_allocated_app, Hs.
    destruct (row_cells_only_cells j 0 (firstn m (visible_cells opts row)))
      as (_ & _ & _ & ->). reflexivity.
  - change (slots_allocated (StContainer (row_key j) :: StColumns n :: ?l))
      with (n :: slots_allocated l).
    destruct (row_cells_only_cells j 0 (firstn m (visible_cells opts row)))
      as (_ & _ & _ & ->). reflexivity.
Qed.

Lemma columns_arg_default (opts : Options) (row : list string) :
  truthy_spec (column_formatting opts) = false ->
  columns_arg opts row = SpecInt (Z.of_nat (length row)).
Proof.
  unfold columns_arg. destruct (column_formatting opts) as [spec|]; [|easy].
  now intros ->.
Qed.

Lemma column_count_len (row : list string) :
  column_count (SpecInt (Z.of_nat (length row))) =
    match row with [] => None | _ :: _ => Some (length row) end.
Proof.
  destruct row as [|c row]; [reflexivity|].
  unfold column_count.
  replace (0 <? Z.of_nat (length (c :: row)))%Z with true
    by (symmetry; apply Z.ltb_lt; cbn [length]; lia).
  now rewrite Nat2Z.id.
Qed.

(** C1 (as amended): with [column_formatting] absent, a non-empty row gets
    as many column slots as it has cells, hidden identifier included; with
    [edit_function] set that is one more than its visible cells. *)
Theorem C1_default_slots_full_row (opts : Options) (host : Host) (j : nat)
    (row : list string) (i0 : option nat) :
  truthy_spec (column_formatting opts) = false ->
  row <> [] ->
  slots_allocated (fst (display_row opts host j row i0)) = [length row]
  /\ length row = length (visible_cells opts row)
                  + (if truthy_fn (edit_function opts) then 1 else 0).
Proof.
  intros Habsent Hrow. split.
  - rewrite display_row_slots, columns_arg_default, column_count_len
      by assumption.
    destruct row; [contradiction|reflexivity].
  - unfold visible_cells. destruct (truthy_fn (edit_function opts)).
    + destruct row; [contradiction|cbn; lia].
    + lia.
Qed.

(** C1 fails as stated: with [edit_function] set and no [column_formatting],
    the row ["1", "Alice", "30"] has two visible cells and is given three
    column slots. *)
Lemma C1_counterexample :
  slots_allocated (fst (display_row opts_edit host_idle 1 ["1"; "Alice"; "30"] None))
    <> [length (visible_cells opts_edit ["1"; "Alice"; "30"])].
Proof. vm_compute. discriminate. Qed.

(** The amended C1 on the data row ["1", "Alice", "30"] with
    [edit_function] set. *)
Lemma C1_witness :
  slots_allocated (fst (display_row opts_edit host_idle 1 ["1"; "Alice"; "30"] None))
    = [3]
  /\ 3 = length (visible_cells opts_edit ["1"; "Alice"; "30"]) + 1.
Proof.
  apply (C1_default_slots_full_row opts_edit host_idle 1 ["1"; "Alice"; "30"] None).
  - reflexivity.
  - discriminate.
Defined.

(** ** Header styling *)

(** Every cell of row 0 is drawn with [markdown("***" + col + "***")],
    whatever [has_header] is. *)
Lemma row0_cells_emphasized (opts : Options) (host : Host)
    (row : list string) (i0 : option nat) (ev : Event) :
  In ev (cells_drawn (fst (display_row opts host 0 row i0))) ->
  exists i col, ev = ColMarkdown i ("***" ++ col ++ "***")%string.
Proof.
  assert (Hcells : forall l, In ev (row_cells 0 0 l) ->
            exists i col, ev = ColMarkdown i ("***" ++ col ++ "***")%string).
  { intros l Hin. unfold row_cells in Hin. apply in_map_iff in Hin.
    destruct Hin as [[i col] [<- _]]. now exists i, col. }
  row_cases opts host 0 row i0; cbn [fst].
  - destruct He as (Hc & _).
    change (cells_drawn (StContainer (row_key 0) :: StColumns n :: ?l))
      with (cells_drawn l).
    rewrite !cells_drawn_app, Hc, row_cells_are_cells, app_nil_r.
    apply Hcells.
  - destruct He as (Hc & _).
    change (cells_drawn (StContainer (row_key 0) :: StColumns n :: ?l))
      with (cells_drawn l).
    rewrite !cells_drawn_app, Hc, row_cells_are_cells, app_nil_r.
    apply Hcells.
  - change (cells_drawn (StContainer (row_key 0) :: StColumns n :: ?l))
      with (cells_drawn l).
    rewrite row_cells_are_cells. apply Hcells.
  - intros [].
Qed.

(** C2 (the code departs from the claim): with [has_header=False] and the
    rows [["Alice", "30"], ["Bob", "25"]], the cells of row 0 are still
    drawn as bold-italic markdown; only row 1 is written plainly. *)
Theorem C2_row0_emphasized_without_header :
  has_header opts_no_header = false
  /\ cells_drawn (fst (run (display_table opts_no_header host_idle
                              [["Alice"; "30"]; ["Bob"; "25"]])))
     = [ColMarkdown 0 "***Alice***"; ColMarkdown 1 "***30***";
        ColWrite 0 "Bob"; ColWrite 1 "25"].
Proof. split; reflexivity. Qed.

(** ** The Edit action *)

Lemma shows_action_iff (opts : Options) (j : nat) :
  shows_action opts j = true <-> j <> 0 \/ has_header opts = false.
Proof.
  unfold shows_action. rewrite orb_true_iff, !negb_true_iff, Nat.eqb_neq.
  reflexivity.
Qed.



(** A button is never drawn on a row for which line 80's test fails, also
    when the row ends in an exception. *)
Lemma no_action_without_test (opts : Options) (host : Host) (j : nat)
    (row : list string) (i0 : option nat) :
  truthy_fn (edit_function opts) && shows_action opts j = false ->
  buttons_drawn (fst (display_row opts host j row i0)) = [].
Proof.
  intros Hno.
  assert (Hcells : forall l, buttons_drawn (row_cells j 0 l) = [])
    by (intros l; apply row_cells_only_cells).
  assert (He' : forall n i1,
            buttons_drawn (fst (edit_action opts host j n row i1)) = []).
  { intros n i1. rewrite edit_action_eq.
    destruct (edit_function opts); [|reflexivity].
    cbn in Hno. now rewrite Hno. }
  row_cases opts host j row i0; cbn [fst]; [| | |reflexivity].
  - specialize (He' n i1). rewrite Hedit in He'. cbn [fst] in He'.
    change (buttons_drawn (StContainer (row_key j) :: StColumns n :: ?l))
      with (buttons_drawn l).
    now rewrite !buttons_drawn_app, Hcells, He'.
  - specialize (He' n i1). rewrite Hedit in He'. cbn [fst] in He'.
    change (buttons_drawn (StContainer (row_key j) :: StColumns n :: ?l))
      with (buttons_drawn l).
    now rewrite !buttons_drawn_app, Hcells, He'.
  - change (buttons_drawn (StContainer (row_key j) :: StColumns n :: ?l))
      with (buttons_drawn l).
    apply Hcells.
Qed.





(** ** The hidden identifier column *)

Lemma default_layout_fits_cells (opts : Options) (row : list string) :
  truthy_spec (column_formatting opts) = false ->
  length (visible_cells opts row) <= slots_available opts row.
Proof.
  intros Habsent. unfold slots_available, visible_cells.
  rewrite columns_arg_default, column_count_len by assumption.
  destruct row as [|c row].
  - now destruct (truthy_fn (edit_function opts)).
  - destruct (truthy_fn (edit_function opts)); cbn; lia.
Qed.






(** ** Row backgrounds *)










(** ** Too few column slots *)

Lemma column_count_pos (spec : ColSpec) (n : nat) :
  column_count spec = Some n -> 0 < n.
Proof.
  destruct spec as [z|ws]; cbn.
  - destruct (0 <? z)%Z eqn:Hz; [|discriminate].
    apply Z.ltb_lt in Hz. intros [= <-]. lia.
  - destruct ws as [|w ws]; [discriminate|].
    destruct (forallb (Z.ltb 0) (w :: ws)); [|discriminate].
    intros [= <-]. cbn. lia.
Qed.

(** C7 fails as stated: with [column_formatting=[2, 1]] and three-cell
    rows, nothing is validated; the first two cells of row 0 are drawn and
    the third ends the call with the list's own IndexError. *)
Lemma C7_counterexample :
  run (display_table opts_two_weights host_idle cities) =
    ([StHtml "<style> .st-key-rnd_table { display: block;} </style>";
      StContainer "rnd_table";
      StContainer "row_0"; StColumns 2;
      ColMarkdown 0 "***Name***"; ColMarkdown 1 "***Age***"],
     Raised IndexError)
  /\ cells_drawn (fst (run (display_table opts_two_weights host_idle cities)))
     <> [].
Proof. split; [reflexivity|]. vm_compute. discriminate. Qed.

(** C7 (as amended): when the slots allocated for a row are fewer than its
    visible cells plus one for the Edit button where line 80 asks for it,
    the row is not validated beforehand: the visible cells that fit are
    drawn in order, one per slot, and then the row ends with the IndexError
    of subscripting [columns], which carries neither the row index nor any
    slot count. *)
Theorem C7_insufficient_layout_index_error (opts : Options) (host : Host)
    (j : nat) (row : list string) (i0 : option nat) (n : nat) :
  column_count (columns_arg opts row) = Some n ->
  n < length (visible_cells opts row)
      + (if truthy_fn (edit_function opts) && shows_action opts j
         then 1 else 0) ->
  display_row opts host j row i0 =
    (StContainer (row_key j) :: StColumns n
       :: row_cells j 0 (firstn n (visible_cells opts row)),
     Raised IndexError).
Proof.
  intros Hn Hfew.
  pose proof (column_count_pos _ _ Hn) as Hpos.
  rewrite display_row_eq, Hn, cell_loop_spec by lia.
  destruct (0 + length (visible_cells opts row) <=? n) eqn:Hfit.
  - apply Nat.leb_le in Hfit.
    destruct (truthy_fn (edit_function opts) && shows_action opts j) eqn:Hw;
      [|lia].
    apply andb_true_iff in Hw. destruct Hw as [Hf Hs].
    assert (Hlen : length (visible_cells opts row) = n) by lia.
    rewrite edit_action_eq, Hs.
    destruct (edit_function opts) as [f|]; [|discriminate].
    destruct (visible_cells opts row) as [|c l] eqn:Hvis; [cbn in Hlen; lia|].
    cbn [i_after_cells].
    replace (0 + length (c :: l) - 1 + 1 <? n) with false
      by (symmetry; apply Nat.ltb_ge; lia).
    rewrite app_nil_r, <- Hlen, firstn_all. reflexivity.
  - now rewrite Nat.sub_0_r.
Qed.

(** The amended C7 on the data row ["1", "Alice"] with one slot: the cell
    fits, the Edit button does not. *)
Lemma C7_witness :
  display_row opts_one_column host_idle 1 ["1"; "Alice"] (Some 0) =
    ([StContainer "row_1"; StColumns 1; ColWrite 0 "Alice"],
     Raised IndexError).
Proof.
  apply (C7_insufficient_layout_index_error opts_one_column host_idle 1
           ["1"; "Alice"] (Some 0) 1).
  - reflexivity.
  - vm_compute. lia.
Defined.

(** ** The cell-loop variable after an empty cell loop *)

Lemma display_table_eq (opts : Options) (host : Host)
    (table_data : list (list string)) (i0 : option nat) :
  display_table opts host table_data i0 =
    (StHtml "<style> .st-key-rnd_table { display: block;} </style>"
       :: StContainer "rnd_table"
       :: fst (for_enumerate (display_row opts host) 0 table_data i0),
     snd (for_enumerate (display_row opts host) 0 table_data i0)).
Proof.
  unfold display_table, bind, emit.
  destruct (for_enumerate (display_row opts host) 0 table_data i0) as [evs o].
  reflexivity.
Qed.



(** ** The concrete scenario *)

(** C9: the rows [["1","Alice","30"],["2","Bob","25"]] with
    [has_header=False], a capturing [edit_function] and no
    [column_formatting] give two rows, each with its two visible cells and
    an Edit button; the callback is called with "1" when row 0's button was
    activated, with "2" when row 1's was, and not at all otherwise. *)
Theorem C9_scenario :
  run (display_table opts_edit_no_header host_idle people) =
    ([StHtml "<style> .st-key-rnd_table { display: block;} </style>";
      StContainer "rnd_table";
      StContainer "row_0"; StColumns 3;
      ColMarkdown 0 "***Alice***"; ColMarkdown 1 "***30***";
      StButton 2 "Edit" "edit_0";
      StHtml "<style> .st-key-row_0 { background-color: transparent;} </style>";
      StContainer "row_1"; StColumns 3;
      ColWrite 0 "Bob"; ColWrite 1 "25";
      StButton 2 "Edit" "edit_1";
      StHtml "<style> .st-key-row_1 { background-color: transparent;} </style>"],
     Done tt (Some 1))
  /\ cells_drawn (fst (display_row opts_edit_no_header host_idle 0
                         ["1"; "Alice"; "30"] None))
     = row_cells 0 0 ["Alice"; "30"]
  /\ cells_drawn (fst (display_row opts_edit_no_header host_idle 1
                         ["2"; "Bob"; "25"] (Some 1)))
     = row_cells 1 0 ["Bob"; "25"]
  /\ callback_calls
       (fst (run (display_table opts_edit_no_header (host_click "edit_0") people)))
     = [(capture, "1")]
  /\ callback_calls
       (fst (run (display_table opts_edit_no_header (host_click "edit_1") people)))
     = [(capture, "2")]
  /\ callback_calls
       (fst (run (display_table opts_edit_no_header host_idle people)))
     = [].
Proof. repeat split. Qed.

(** ** Identity keys *)

Lemma str_inj (n m : nat) : str n = str m -> n = m.
Proof.
  unfold str. intros H.
  apply (f_equal NilEmpty.uint_of_string) in H.
  rewrite !NilEmpty.usu in H. injection H as H.
  apply (f_equal Nat.of_uint) in H.
  now rewrite !DecimalNat.Unsigned.of_to in H.
Qed.

Lemma row_key_inj (n m : nat) : row_key n = row_key m -> n = m.
Proof. unfold row_key. intros [= H]. now apply str_inj. Qed.

Lemma edit_key_inj (n m : nat) : edit_key n = edit_key m -> n = m.
Proof. unfold edit_key. intros [= H]. now apply str_inj. Qed.

Lemma row_key_not_edit_key (n m : nat) : row_key n <> edit_key m.
Proof. unfold row_key, edit_key. discriminate. Qed.

Lemma table_key_not_row_key (n : nat) : "rnd_table"%string <> row_key n.
Proof. unfold row_key. discriminate. Qed.

Lemma table_key_not_edit_key (n : nat) : "rnd_table"%string <> edit_key n.
Proof. unfold edit_key. discriminate. Qed.

(** A row uses its container key and, when the button is drawn, its button
    key. *)
Lemma display_row_keys (opts : Options) (host : Host) (j : nat)
    (row : list string) (i0 : option nat) :
  exists b : bool,
    keys_used (fst (display_row opts host j row i0)) =
      row_key j :: if b then [edit_key j] else [].
Proof.
  assert (Hcells : forall l, keys_used (row_cells j 0 l) = [])
    by (intros l; apply row_cells_only_cells).
  row_cases opts host j row i0; cbn [fst].
  - change (keys_used (StContainer (row_key j) :: StColumns n :: ?l))
      with (row_key j :: keys_used l).
    rewrite !keys_used_app, Hcells. cbn [app keys_used flat_map].
    rewrite app_nil_r.
    destruct He as (_ & _ & [(_ & -> & _) | (f & i & _ & _ & _ & _ & _ & -> & _)]).
    + now exists false.
    + now exists true.
  - change (keys_used (StContainer (row_key j) :: StColumns n :: ?l))
      with (row_key j :: keys_used l).
    rewrite !keys_used_app, Hcells. cbn [app].
    destruct He as (_ & _ & [(_ & -> & _) | (f & i & _ & _ & _ & _ & _ & -> & _)]).
    + now exists false.
    + now exists true.
  - change (keys_used (StContainer (row_key j) :: StColumns n :: ?l))
      with (row_key j :: keys_used l).
    rewrite Hcells. now exists false.
  - now exists false.
Qed.

(** The keys used by the rows from index [k] on are distinct, and each is
    the container or button key of one of those rows' indices. *)
Lemma rows_keys (opts : Options) (host : Host) (rows : list (list string)) :
  forall (k : nat) (i0 : option nat),
    NoDup (keys_used (fst (for_enumerate (display_row opts host) k rows i0)))
    /\ forall key,
         In key (keys_used (fst (for_enumerate (display_row opts host) k rows i0))) ->
         exists m, k <= m < k + length rows
                   /\ (key = row_key m \/ key = edit_key m).
Proof.
  induction rows as [|row rows IH]; intros k i0.
  - cbn. split; [constructor|intros key []].
  - rewrite for_enumerate_cons. cbn [length].
    destruct (display_row_keys opts host k row i0) as [b Hk].
    assert (Hown : NoDup (row_key k :: if b then [edit_key k] else [])).
    { destruct b; repeat constructor; cbn; try tauto.
      intros [H|[]]. symmetry in H. now apply row_key_not_edit_key in H. }
    assert (Hidx : forall key,
              In key (row_key k :: if b then [edit_key k] else []) ->
              key = row_key k \/ key = edit_key k).
    { intros key [<-|Hin]; [now left|].
      destruct b; [|contradiction]. destruct Hin as [<-|[]]. now right. }
    destruct (display_row opts host k row i0) as [evs [[] i1|e]];
      cbn [fst] in Hk.
    + destruct (IH (S k) i1) as [Hnd Hin].
      destruct (for_enumerate (display_row opts host) (S k) rows i1)
        as [evs' o]. cbn [fst] in *.
      rewrite keys_used_app, Hk. split.
      * apply NoDup_app; [exact Hown|exact Hnd|].
        intros key Hk1 Hk2.
        apply Hidx in Hk1. apply Hin in Hk2. destruct Hk2 as (m & Hm & Hkey).
        destruct Hk1 as [->| ->], Hkey as [Hkey|Hkey].
        -- apply row_key_inj in Hkey. lia.
        -- now apply row_key_not_edit_key in Hkey.
        -- symmetry in Hkey. now apply row_key_not_edit_key in Hkey.
        -- apply edit_key_inj in Hkey. lia.
      * intros key Hkey. apply in_app_or in Hkey. destruct Hkey as [Hkey|Hkey].
        -- exists k. split; [lia|]. now apply Hidx.
        -- apply Hin in Hkey. destruct Hkey as (m & Hm & Hkey).
           exists m. split; [lia|exact Hkey].
    + cbn [fst]. rewrite Hk. split; [exact Hown|].
      intros key Hkey. exists k. split; [lia|]. now apply Hidx.
Qed.

(** C8 fails as stated: two tables drawn in one application get the same
    keys, since no key mentions the table. *)
Lemma C8_counterexample :
  keys_used (fst (run (display_table opts_edit host_idle people_with_header)))
    = ["rnd_table"; "row_0"; "row_1"; "edit_1"]%string
  /\ keys_used (fst (run (display_table opts_edit host_idle cities)))
     = ["rnd_table"; "row_0"; "row_1"; "edit_1"]%string
  /\ ~ NoDup
        (keys_used (fst (run (display_table opts_edit host_idle people_with_header)))
         ++ keys_used (fst (run (display_table opts_edit host_idle cities)))).
Proof.
  split; [reflexivity|]. split; [reflexivity|].
  vm_compute. intros H. inversion H as [|key keys Hnotin _].
  apply Hnotin. do 3 right. now left.
Qed.

(** C8 (as amended): within one call the keys of the table container, the
    row containers and the Edit buttons are pairwise distinct, and each key
    other than the table's is [row_m] or [edit_m] for a row index [m] of
    the table: the keys are built from the row index alone. *)
Theorem C8_keys_unique_within_call (opts : Options) (host : Host)
    (table_data : list (list string)) :
  NoDup (keys_used (fst (run (display_table opts host table_data))))
  /\ forall key,
       In key (keys_used (fst (run (display_table opts host table_data)))) ->
       key = "rnd_table"%string
       \/ exists m, m < length table_data
                    /\ (key = row_key m \/ key = edit_key m).
Proof.
  unfold run. rewrite display_table_eq. cbn [fst].
  destruct (rows_keys opts host table_data 0 None) as [Hnd Hin].
  change (keys_used (StHtml ?b :: StContainer ?k :: ?l))
    with (k :: keys_used l).
  split.
  - constructor; [|exact Hnd].
    intros Hk. apply Hin in Hk. destruct Hk as (m & _ & [Hk|Hk]).
    + now apply table_key_not_row_key in Hk.
    + now apply table_key_not_edit_key in Hk.
  - intros key [<-|Hk]; [now left|]. right.
    apply Hin in Hk. destruct Hk as (m & Hm & Hk).
    exists m. split; [lia|exact Hk].
Qed.

(** The amended C8 on a two-row table with an Edit button on row 1. *)
Lemma C8_witness :
  NoDup (keys_used (fst (run (display_table opts_edit host_idle people_with_header))))
  /\ ("edit_1"%string = "rnd_table"%string
      \/ exists m, m < 2
                   /\ ("edit_1"%string = row_key m \/ "edit_1"%string = edit_key m)).
Proof.
  destruct (C8_keys_unique_within_call opts_edit host_idle people_with_header)
    as [Hnd Hin].
  split; [exact Hnd|].
  apply (Hin "edit_1"%string). vm_compute. do 3 right. now left.
Defined.

(** ** From rows to the table *)

Lemma for_enumerate_app {A} (body : nat -> A -> M unit) (l1 l2 : list A) :
  forall (k : nat) (i0 : option nat),
    for_enumerate body k (l1 ++ l2) i0 =
      match for_enumerate body k l1 i0 with
      | (evs, Done _ i1) =>
          let (evs', o) := for_enumerate body (k + length l1) l2 i1 in
          (evs ++ evs', o)
      | (evs, Raised e) => (evs, Raised e)
      end.
Proof.
  induction l1 as [|x l1 IH]; intros k i0.
  - cbn. rewrite Nat.add_0_r.
    now destruct (for_enumerate body k l2 i0).
  - cbn [app length]. rewrite !for_enumerate_cons.
    destruct (body k x i0) as [evs [[] i1|e]]; [|reflexivity].
    rewrite IH.
    destruct (for_enumerate body (S k) l1 i1) as [evs1 [[] i2|e]];
      [|reflexivity].
    replace (k + S (length l1)) with (S k + length l1) by lia.
    destruct (for_enumerate body (S k + length l1) l2 i2) as [evs2 o].
    now rewrite app_assoc.
Qed.

(** In a call that completes, every row is drawn by the row body at its own
    index, starting from the [i] the rows before it left, and its events
    appear in the call's events between those of the rows around it. *)
Lemma completed_table_rows (opts : Options) (host : Host)
    (before after : list (list string)) (row : list string)
    (evs : list Event) (iend : option nat) :
  run (display_table opts host (before ++ row :: after)) = (evs, Done tt iend) ->
  exists evs_before i0 evs_row i1 evs_after,
    for_enumerate (display_row opts host) 0 before None
      = (evs_before, Done tt i0)
    /\ display_row opts host (length before) row i0 = (evs_row, Done tt i1)
    /\ evs = StHtml "<style> .st-key-rnd_table { display: block;} </style>"
              :: StContainer "rnd_table"
              :: evs_before ++ evs_row ++ evs_after.
Proof.
  unfold run. rewrite display_table_eq, for_enumerate_app.
  destruct (for_enumerate (display_row opts host) 0 before None)
    as [evs_before [[] i0|e]]; [|discriminate].
  cbn [Nat.add]. rewrite for_enumerate_cons.
  destruct (display_row opts host (length before) row i0)
    as [evs_row [[] i1|e]] eqn:Hrow; [|discriminate].
  destruct (for_enumerate (display_row opts host) (S (length before)) after i1)
    as [evs_after o].
  cbn [fst snd]. intros [= <- _].
  exists evs_before, i0, evs_row, i1, evs_after.
  split; [reflexivity|]. split; [exact Hrow|reflexivity].
Qed.

(** ** Further properties of the row body *)

(** X1: whatever the layout and however the row ends, the cells drawn on a
    row are the first visible cells, in order and one per slot from slot 0,
    as many as there are slots (all of them when the slots suffice, none
    when the host refused the column specification). *)
Theorem X1_cells_drawn_closed_form (opts : Options) (host : Host) (j : nat)
    (row : list string) (i0 : option nat) :
  cells_drawn (fst (display_row opts host j row i0)) =
    row_cells j 0 (firstn (slots_available opts row) (visible_cells opts row)).
Proof.
  unfold slots_available. rewrite display_row_eq.
  destruct (column_count (columns_arg opts row)) as [n|]; [|reflexivity].
  rewrite cell_loop_spec by lia.
  destruct (0 + length (visible_cells opts row) <=? n) eqn:Hfit.
  - apply Nat.leb_le in Hfit. rewrite firstn_all2 by lia.
    pose proof (edit_action_events opts host j n row
                  (i_after_cells 0 (visible_cells opts row) i0)) as (Hc & _).
    destruct (edit_action opts host j n row _) as [eev [[] i2|e]];
      cbn [fst] in *;
      change (cells_drawn (StContainer (row_key j) :: StColumns n :: ?l))
        with (cells_drawn l);
      now rewrite !cells_drawn_app, Hc, row_cells_are_cells, app_nil_r.
  - rewrite Nat.sub_0_r. cbn [fst].
    change (cells_drawn (StContainer (row_key j) :: StColumns n :: ?l))
      with (cells_drawn l).
    apply row_cells_are_cells.
Qed.

(** ** The default layout *)





(** ** Callback calls of a whole call *)

(** What callback calls a row can make: none, or one call with the row's
    first cell, and then only for a row under line 80's test whose button
    was activated. *)
Lemma display_row_callbacks (opts : Options) (host : Host) (j : nat)
    (row : list string) (i0 : option nat) :
  callback_calls (fst (display_row opts host j row i0)) = []
  \/ exists f id rest,
       row = id :: rest
       /\ edit_function opts = Some f /\ shows_action opts j = true
       /\ button_clicked host (edit_key j) = true
       /\ callback_calls (fst (display_row opts host j row i0)) = [(f, id)].
Proof.
  assert (Hcells : forall l, callback_calls (row_cells j 0 l) = [])
    by (intros l; apply row_cells_only_cells).
  assert (Hedit : forall n i1,
            callback_calls (fst (edit_action opts host j n row i1)) = []
            \/ exists f id rest,
                 row = id :: rest
                 /\ edit_function opts = Some f /\ shows_action opts j = true
                 /\ button_clicked host (edit_key j) = true
                 /\ callback_calls (fst (edit_action opts host j n row i1))
                    = [(f, id)]).
  { intros n i1.
    destruct (edit_action_events opts host j n row i1)
      as (_ & _ & [(_ & _ & ->) | (f & i & Hf & Hs & _ & _ & _ & _ & ->)]);
      [now left|].
    destruct (button_clicked host (edit_key j)) eqn:Hc; [|now left].
    destruct row as [|id rest]; [now left|].
    right. now exists f, id, rest. }
  rewrite display_row_eq.
  destruct (column_count (columns_arg opts row)) as [n|]; [|now left].
  destruct (cell_loop_events j n (visible_cells opts row) i0) as [m Hm].
  destruct (for_enumerate (cell_body j n) 0 (visible_cells opts row) i0)
    as [cev [[] i1|err]]; cbn [fst] in Hm; subst cev.
  - specialize (Hedit n i1).
    destruct (edit_action opts host j n row i1) as [eev [[] i2|err]];
      cbn [fst] in *;
      change (callback_calls (StContainer (row_key j) :: StColumns n :: ?l))
        with (callback_calls l);
      rewrite !callback_calls_app, Hcells; cbn [app callback_calls flat_map];
      rewrite ?app_nil_r; exact Hedit.
  - cbn [fst].
    change (callback_calls (StContainer (row_key j) :: StColumns n :: ?l))
      with (callback_calls l).
    left. apply Hcells.
Qed.

Lemma rows_callbacks (opts : Options) (host : Host) (rows : list (list string)) :
  forall (k : nat) (i0 : option nat) (c : Callback * string),
    In c (callback_calls (fst (for_enumerate (display_row opts host) k rows i0))) ->
    exists j id rest f,
      k <= j
      /\ nth_error rows (j - k) = Some (id :: rest)
      /\ c = (f, id)
      /\ edit_function opts = Some f
      /\ shows_action opts j = true
      /\ button_clicked host (edit_key j) = true.
Proof.
  induction rows as [|row rows IH]; intros k i0 c.
  - intros [].
  - rewrite for_enumerate_cons.
    assert (Hown : In c (callback_calls (fst (display_row opts host k row i0))) ->
              exists j id rest f,
                k <= j
                /\ nth_error (row :: rows) (j - k) = Some (id :: rest)
                /\ c = (f, id)
                /\ edit_function opts = Some f
                /\ shows_action opts j = true
                /\ button_clicked host (edit_key j) = true).
    { destruct (display_row_callbacks opts host k row i0)
        as [-> | (f & id & rest & -> & Hf & Hs & Hc & ->)]; [intros []|].
      intros [<-|[]]. exists k, id, rest, f.
      rewrite Nat.sub_diag. repeat split; auto. }
    destruct (display_row opts host k row i0) as [evs [[] i1|err]];
      cbn [fst] in *; [|exact Hown].
    specialize (IH (S k) i1 c).
    destruct (for_enumerate (display_row opts host) (S k) rows i1) as [evs' o].
    cbn [fst] in *. rewrite callback_calls_app. intros Hin.
    apply in_app_or in Hin. destruct Hin as [Hin|Hin]; [now apply Hown|].
    destruct (IH Hin) as (j & id & rest & f & Hj & Hnth & Hc & Hf & Hs & Hb).
    exists j, id, rest, f.
    replace (j - k) with (S (j - S k)) by lia.
    repeat split; auto; lia.
Qed.

(** X3: every callback call of a run is [edit_function] applied to the
    first cell of one of the table's rows, a row that passes line 80's test
    and whose Edit button the host reports as activated; so a run in which
    no button was activated calls nothing. *)
Theorem X3_callback_only_on_activation (opts : Options) (host : Host)
    (table_data : list (list string)) :
  (forall c,
     In c (callback_calls (fst (run (display_table opts host table_data)))) ->
     exists j id rest f,
       nth_error table_data j = Some (id :: rest)
       /\ c = (f, id)
       /\ edit_function opts = Some f
       /\ (j <> 0 \/ has_header opts = false)
       /\ button_clicked host (edit_key j) = true)
  /\ ((forall key, button_clicked host key = false) ->
      callback_calls (fst (run (display_table opts host table_data))) = []).
Proof.
  assert (Hall : forall c,
     In c (callback_calls (fst (run (display_table opts host table_data)))) ->
     exists j id rest f,
       nth_error table_data j = Some (id :: rest)
       /\ c = (f, id)
       /\ edit_function opts = Some f
       /\ (j <> 0 \/ has_header opts = false)
       /\ button_clicked host (edit_key j) = true).
  { unfold run. rewrite display_table_eq. cbn [fst].
    change (callback_calls (StHtml ?x :: StContainer ?k :: ?l))
      with (callback_calls l).
    intros c Hin.
    destruct (rows_callbacks opts host table_data 0 None c Hin)
      as (j & id & rest & f & _ & Hnth & Hc & Hf & Hs & Hb).
    rewrite Nat.sub_0_r in Hnth. apply shows_action_iff in Hs.
    now exists j, id, rest, f. }
  split; [exact Hall|].
  intros Hidle.
  destruct (callback_calls (fst (run (display_table opts host table_data))))
    as [|c cs]; [reflexivity|].
  destruct (Hall c (or_introl eq_refl)) as (j & _ & _ & _ & _ & _ & _ & _ & Hb).
  rewrite Hidle in Hb. discriminate.
Qed.

(** ** Exceptions *)

(** X4: when the rows before a row are drawn to their end and that row
    raises, the call on the whole table draws exactly what the call on the
    rows before drew, then what the failing row drew before raising, and
    ends with the same exception; the rows after it are never reached. *)
Theorem X4_failing_row_stops_call (opts : Options) (host : Host)
    (before after : list (list string)) (row : list string)
    (evs_before evs_row : list Event) (i0 : option nat) (err : PyError) :
  run (display_table opts host before) = (evs_before, Done tt i0) ->
  display_row opts host (length before) row i0 = (evs_row, Raised err) ->
  run (display_table opts host (before ++ row :: after)) =
    (evs_before ++ evs_row, Raised err).
Proof.
  unfold run. rewrite !display_table_eq, for_enumerate_app.
  destruct (for_enumerate (display_row opts host) 0 before None)
    as [evs_b [[] ib|e]]; cbn [fst snd]; [|discriminate].
  intros [= <- <-]. intros Hrow.
  cbn [Nat.add]. rewrite for_enumerate_cons, Hrow. reflexivity.
Qed.

Lemma X4_witness :
  run (display_table opts_one_column host_idle
         ([["ID"; "Name"]] ++ ["1"; "Alice"] :: [["2"; "Bob"]])) =
    ([StHtml "<style> .st-key-rnd_table { display: block;} </style>";
      StContainer "rnd_table";
      StContainer "row_0"; StColumns 1; ColMarkdown 0 "***Name***";
      StHtml "<style> .st-key-row_0 { background-color: transparent;} </style>"]
     ++ [StContainer "row_1"; StColumns 1; ColWrite 0 "Alice"],
     Raised IndexError).
Proof.
  apply (X4_failing_row_stops_call opts_one_column host_idle
           [["ID"; "Name"]] [["2"; "Bob"]] ["1"; "Alice"] _ _ (Some 0)).
  - reflexivity.
  - reflexivity.
Defined.






(** ** Enough slots *)



